(** * Fork activation and consensus parameters (src/consensus/params.h)

    A shallow embedding of the consensus-rules class hierarchy
    ([ConsensusRules], [MainNetConsensus], [TestNetConsensus],
    [RegTestConsensus]) and of the [Params] aggregate, followed by the
    properties of fork activation, activation heights, the difficulty
    adjustment interval and the legacy-block boundary. *)

From Stdlib Require Import ZArith List Bool Lia.
Import ListNotations.

Local Open Scope Z_scope.

(** ** Outcomes of a call

    A call either returns a value, stops the process in [assert (false)]
    (the build keeps assertions enabled), or has no behaviour defined by the
    language (integer division by zero or with an unrepresentable quotient,
    a call of a pure virtual function, a null pointer dereferenced). *)

Inductive outcome (A : Type) : Type :=
| Returns (a : A)
| AssertionFailed
| Undefined.

Arguments Returns {A} a.
Arguments AssertionFailed {A}.
Arguments Undefined {A}.

Definition bind {A B : Type} (c : outcome A) (k : A -> outcome B) : outcome B :=
  match c with
  | Returns a => k a
  | AssertionFailed => AssertionFailed
  | Undefined => Undefined
  end.

Declare Scope outcome_scope.
Delimit Scope outcome_scope with outcome.
Notation "x <- c ;; k" := (bind c (fun x => k))
  (at level 61, c at next level, right associativity) : outcome_scope.
Local Open Scope outcome_scope.

(** ** Machine integers *)

(** [unsigned] is 32 bits wide on every platform the node is built for. *)
Definition UINT_MAX : Z := 4294967295.
Definition INT64_MIN : Z := -9223372036854775808.
Definition INT64_MAX : Z := 9223372036854775807.
Definition INT32_MIN : Z := -2147483648.
Definition INT32_MAX : Z := 2147483647.
Definition UINT256_MAX : Z := 2 ^ 256 - 1.

(** Subtraction on [unsigned]: the result is reduced modulo 2^32. *)
Definition unsigned_sub (a b : Z) : Z := (a - b) mod (UINT_MAX + 1).

(** Division on [int64_t]: truncation toward zero; the behaviour is undefined
    for a zero divisor and when the quotient is not representable. *)
Definition int64_div (a b : Z) : outcome Z :=
  if b =? 0 then Undefined
  else if (a =? INT64_MIN) && (b =? -1) then Undefined
  else Returns (a ÷ b).

(** ** enum Fork *)

(** A value of the enumeration type is its underlying integer; the four
    enumerators take the values 0 to 3 in declaration order. *)
Definition Fork : Type := Z.

Definition FORK_POISON : Fork := 0.
Definition FORK_CARRYINGCAP : Fork := 1.
Definition FORK_LESSHEARTS : Fork := 2.
Definition FORK_LIFESTEAL : Fork := 3.

Definition Fork_enumerators : list Fork :=
  [FORK_POISON; FORK_CARRYINGCAP; FORK_LESSHEARTS; FORK_LIFESTEAL].

(** ** enum PowAlgo *)

Definition PowAlgo : Type := Z.

Definition ALGO_SHA256D : PowAlgo := 0.
Definition ALGO_SCRYPT : PowAlgo := 1.
Definition NUM_ALGOS : PowAlgo := 2.

Module Consensus.

(** ** The class hierarchy *)

Inductive ClassId : Type :=
| ConsensusRules
| MainNetConsensus
| TestNetConsensus
| RegTestConsensus.

(** The direct base class of each class. *)
Definition base (c : ClassId) : option ClassId :=
  match c with
  | ConsensusRules => None
  | MainNetConsensus => Some ConsensusRules
  | TestNetConsensus => Some MainNetConsensus
  | RegTestConsensus => Some TestNetConsensus
  end.

(** What a class body says about the virtual member [ForkInEffect]. *)
Inductive member_decl : Type :=
| Defined_as (body : Fork -> Z -> outcome bool)
| PureVirtual
| NotDeclared.

(** MainNetConsensus::ForkInEffect *)
Definition MainNetConsensus_ForkInEffect (type : Fork) (nHeight : Z) : outcome bool :=
  if type =? FORK_POISON then Returns (nHeight >=? 255000)
  else if type =? FORK_CARRYINGCAP then Returns (nHeight >=? 500000)
  else if type =? FORK_LESSHEARTS then Returns (nHeight >=? 590000)
  else if type =? FORK_LIFESTEAL then Returns (nHeight >=? 795000)
  else AssertionFailed.

(** TestNetConsensus::ForkInEffect *)
Definition TestNetConsensus_ForkInEffect (type : Fork) (nHeight : Z) : outcome bool :=
  if type =? FORK_POISON then Returns (nHeight >=? 190000)
  else if type =? FORK_CARRYINGCAP then Returns (nHeight >=? 200000)
  else if type =? FORK_LESSHEARTS then Returns (nHeight >=? 240000)
  else if type =? FORK_LIFESTEAL then Returns (nHeight >=? 301000)
  else AssertionFailed.

Definition declared_ForkInEffect (c : ClassId) : member_decl :=
  match c with
  | ConsensusRules => PureVirtual
  | MainNetConsensus => Defined_as MainNetConsensus_ForkInEffect
  | TestNetConsensus => Defined_as TestNetConsensus_ForkInEffect
  | RegTestConsensus => NotDeclared
  end.

(** The final overrider of [ForkInEffect] in class [c]: the declaration of
    [c] itself, or else the one inherited from its base.  [depth] bounds the
    walk up the hierarchy. *)
Fixpoint final_overrider (depth : nat) (c : ClassId)
  : option (Fork -> Z -> outcome bool) :=
  match declared_ForkInEffect c with
  | Defined_as body => Some body
  | PureVirtual => None
  | NotDeclared =>
      match depth, base c with
      | S d, Some b => final_overrider d b
      | _, _ => None
      end
  end.

(** The hierarchy has four classes, so three steps reach the root. *)
Definition hierarchy_depth : nat := 3.

(** A class whose final overrider is pure virtual is abstract: no object has
    it as its dynamic type. *)
Definition is_abstract (c : ClassId) : bool :=
  match final_overrider hierarchy_depth c with
  | Some _ => false
  | None => true
  end.

(** The virtual call [this->ForkInEffect (type, nHeight)], where [this] is
    the dynamic type of the object. *)
Definition ForkInEffect (this : ClassId) (type : Fork) (nHeight : Z) : outcome bool :=
  match final_overrider hierarchy_depth this with
  | Some body => body type nHeight
  | None => Undefined
  end.

(** ConsensusRules::IsForkHeight, inherited unchanged by every class.  The
    conjunction evaluates its right operand only when the left one is true. *)
Definition IsForkHeight (this : ClassId) (type : Fork) (nHeight : Z) : outcome bool :=
  if nHeight =? 0 then Returns false
  else
    inEffect <- ForkInEffect this type nHeight ;;
    if inEffect
    then (before <- ForkInEffect this type (unsigned_sub nHeight 1) ;;
          Returns (negb before))
    else Returns false.

(** ** struct Params *)

Record Params : Type := mkParams {
  hashGenesisBlock : Z;
  nSubsidyHalvingInterval : Z;
  nMajorityEnforceBlockUpgrade : Z;
  nMajorityRejectBlockOutdated : Z;
  nMajorityWindow : Z;
  BIP34Height : Z;
  BIP34Hash : Z;
  powLimit : list Z;
  fPowNoRetargeting : bool;
  nPowTargetSpacing : Z;
  nPowTargetTimespan : Z;
  nAuxpowChainId : list Z;
  fStrictChainId : bool;
  rules : option ClassId
}.

Definition in_range (lo hi x : Z) : Prop := lo <= x <= hi.

(** The values of the field types: 32-bit [int], [int64_t], [uint256],
    arrays of [NUM_ALGOS] elements, and an owning pointer that is null or
    points to an object of a class that is not abstract. *)
Definition Params_well_typed (p : Params) : Prop :=
  in_range 0 UINT256_MAX (hashGenesisBlock p) /\
  in_range INT32_MIN INT32_MAX (nSubsidyHalvingInterval p) /\
  in_range INT32_MIN INT32_MAX (nMajorityEnforceBlockUpgrade p) /\
  in_range INT32_MIN INT32_MAX (nMajorityRejectBlockOutdated p) /\
  in_range INT32_MIN INT32_MAX (nMajorityWindow p) /\
  in_range INT32_MIN INT32_MAX (BIP34Height p) /\
  in_range 0 UINT256_MAX (BIP34Hash p) /\
  (Z.of_nat (length (powLimit p)) = NUM_ALGOS /\
   Forall (in_range 0 UINT256_MAX) (powLimit p)) /\
  in_range INT64_MIN INT64_MAX (nPowTargetSpacing p) /\
  in_range INT64_MIN INT64_MAX (nPowTargetTimespan p) /\
  (Z.of_nat (length (nAuxpowChainId p)) = NUM_ALGOS /\
   Forall (in_range INT32_MIN INT32_MAX) (nAuxpowChainId p)) /\
  match rules p with
  | Some c => is_abstract c = false
  | None => True
  end.

(** Params::DifficultyAdjustmentInterval *)
Definition DifficultyAdjustmentInterval (p : Params) : outcome Z :=
  int64_div (nPowTargetTimespan p) (nPowTargetSpacing p).

(** Params::AllowLegacyBlocks *)
Definition AllowLegacyBlocks (p : Params) (nHeight : Z) : bool :=
  nHeight =? 0.

(** ** Notions used to state the properties *)

(** [T] is the activation threshold of [type] under the rules [this]: [T]
    is a height, and at every height the fork is in effect exactly from [T]
    on. *)
Definition activation_threshold (this : ClassId) (type : Fork) (T : Z) : Prop :=
  0 <= T <= UINT_MAX /\
  forall h, 0 <= h <= UINT_MAX -> ForkInEffect this type h = Returns (h >=? T).

(** A function body that is a threshold comparison for the enumerators and
    the failed assertion for every other value. *)
Definition threshold_switch (body : Fork -> Z -> outcome bool) : Prop :=
  forall type,
    (In type Fork_enumerators /\
     exists T, 0 < T <= UINT_MAX /\ forall h, body type h = Returns (h >=? T))
    \/
    (~ In type Fork_enumerators /\ forall h, body type h = AssertionFailed).


(** A parameter set with a two-minute spacing and a two-week timespan. *)
Definition example_params : Params :=
  {| hashGenesisBlock := 1;
     nSubsidyHalvingInterval := 2100000;
     nMajorityEnforceBlockUpgrade := 750;
     nMajorityRejectBlockOutdated := 950;
     nMajorityWindow := 1000;
     BIP34Height := 1;
     BIP34Hash := 0;
     powLimit := [2 ^ 224 - 1; 2 ^ 236 - 1];
     fPowNoRetargeting := false;
     nPowTargetSpacing := 120;
     nPowTargetTimespan := 1209600;
     nAuxpowChainId := [6; 2];
     fStrictChainId := true;
     rules := Some MainNetConsensus |}.

(** The same parameter set with the most negative timespan and a spacing
    of -1. *)
Definition overflow_params : Params :=
  {| hashGenesisBlock := 1;
     nSubsidyHalvingInterval := 2100000;
     nMajorityEnforceBlockUpgrade := 750;
     nMajorityRejectBlockOutdated := 950;
     nMajorityWindow := 1000;
     BIP34Height := 1;
     BIP34Hash := 0;
     powLimit := [2 ^ 224 - 1; 2 ^ 236 - 1];
     fPowNoRetargeting := false;
     nPowTargetSpacing := -1;
     nPowTargetTimespan := INT64_MIN;
     nAuxpowChainId := [6; 2];
     fStrictChainId := true;
     rules := Some MainNetConsensus |}.


(** ** Tactics *)

(** Case analysis on the labels of a [switch] over [type]. *)
Ltac switch_on type :=
  destruct (Z.eqb_spec type FORK_POISON);
  [| destruct (Z.eqb_spec type FORK_CARRYINGCAP);
     [| destruct (Z.eqb_spec type FORK_LESSHEARTS);
        [| destruct (Z.eqb_spec type FORK_LIFESTEAL)]]].

(** A range between two literals, checked by evaluation. *)
Ltac range_by_computation :=
  unfold in_range; split; apply Z.leb_le; reflexivity.

(** ** Machine arithmetic *)

Lemma unsigned_sub_1 (h : Z) :
  1 <= h <= UINT_MAX -> unsigned_sub h 1 = h - 1.
Proof.
  intros Hh. unfold unsigned_sub.
  apply Z.mod_small. unfold UINT_MAX in *. lia.
Qed.

Lemma int64_div_defined (a b : Z) :
  b <> 0 -> ~ (a = INT64_MIN /\ b = -1) -> int64_div a b = Returns (a ÷ b).
Proof.
  intros Hb Hov. unfold int64_div.
  destruct (Z.eqb_spec b 0) as [E | _]; [contradiction |].
  destruct (Z.eqb_spec a INT64_MIN) as [Ea | _];
    destruct (Z.eqb_spec b (-1)) as [Eb | _]; simpl; try reflexivity.
  exfalso. apply Hov. split; assumption.
Qed.

Lemma int64_div_in_range (a b q : Z) :
  in_range INT64_MIN INT64_MAX a ->
  int64_div a b = Returns q -> in_range INT64_MIN INT64_MAX q.
Proof.
  unfold int64_div, in_range, INT64_MIN, INT64_MAX. intros Ha.
  destruct (Z.eqb_spec b 0) as [E | Hb]; [discriminate |].
  pose proof (Z.quot_rem' a b) as Hqr.
  pose proof (Z.rem_bound_abs a b Hb) as Hr.
  pose proof (Z.rem_sign_mul a b Hb) as Hs.
  destruct (Z.eqb_spec a (-9223372036854775808)) as [Ea | Hna];
    destruct (Z.eqb_spec b (-1)) as [Eb | Hnb]; simpl; try discriminate;
    intros [= <-]; nia.
Qed.

(** ** The hierarchy *)

Lemma final_overrider_MainNet :
  final_overrider hierarchy_depth MainNetConsensus = Some MainNetConsensus_ForkInEffect.
Proof. reflexivity. Qed.

Lemma final_overrider_TestNet :
  final_overrider hierarchy_depth TestNetConsensus = Some TestNetConsensus_ForkInEffect.
Proof. reflexivity. Qed.

(** The walk from [RegTestConsensus] takes one step, to its base. *)
Lemma final_overrider_RegTest :
  final_overrider hierarchy_depth RegTestConsensus
  = final_overrider (pred hierarchy_depth) TestNetConsensus.
Proof. reflexivity. Qed.

(** The bound on the walk is never what stops it. *)
Lemma final_overrider_depth (c : ClassId) (n : nat) :
  (hierarchy_depth <= n)%nat ->
  final_overrider n c = final_overrider hierarchy_depth c.
Proof.
  unfold hierarchy_depth. intros Hn.
  destruct n as [| [| [| n]]]; try lia; destruct c; reflexivity.
Qed.

(** The classes that can be instantiated are the three network classes. *)
Lemma not_abstract_cases (c : ClassId) :
  is_abstract c = false <->
  c = MainNetConsensus \/ c = TestNetConsensus \/ c = RegTestConsensus.
Proof.
  split.
  - destruct c; cbv; intros H; try discriminate; auto.
  - intros [-> | [-> | ->]]; reflexivity.
Qed.

Lemma Fork_enumerators_cases (type : Fork) :
  In type Fork_enumerators <->
  type = FORK_POISON \/ type = FORK_CARRYINGCAP \/
  type = FORK_LESSHEARTS \/ type = FORK_LIFESTEAL.
Proof.
  unfold Fork_enumerators. simpl. intuition congruence.
Qed.

(** ** The shape of the switch *)

Lemma MainNetConsensus_threshold_switch :
  threshold_switch MainNetConsensus_ForkInEffect.
Proof.
  intros type. unfold MainNetConsensus_ForkInEffect.
  rewrite Fork_enumerators_cases. unfold UINT_MAX.
  switch_on type.
  - left. split; [tauto | exists 255000; split; [lia | reflexivity]].
  - left. split; [tauto | exists 500000; split; [lia | reflexivity]].
  - left. split; [tauto | exists 590000; split; [lia | reflexivity]].
  - left. split; [tauto | exists 795000; split; [lia | reflexivity]].
  - right. split; [tauto | reflexivity].
Qed.

Lemma TestNetConsensus_threshold_switch :
  threshold_switch TestNetConsensus_ForkInEffect.
Proof.
  intros type. unfold TestNetConsensus_ForkInEffect.
  rewrite Fork_enumerators_cases. unfold UINT_MAX.
  switch_on type.
  - left. split; [tauto | exists 190000; split; [lia | reflexivity]].
  - left. split; [tauto | exists 200000; split; [lia | reflexivity]].
  - left. split; [tauto | exists 240000; split; [lia | reflexivity]].
  - left. split; [tauto | exists 301000; split; [lia | reflexivity]].
  - right. split; [tauto | reflexivity].
Qed.

(** Every virtual call is of one of three kinds, whatever the height. *)
Lemma ForkInEffect_shape (this : ClassId) (type : Fork) :
  (is_abstract this = false /\ In type Fork_enumerators /\
   exists T, 0 < T <= UINT_MAX /\
             forall h, ForkInEffect this type h = Returns (h >=? T))
  \/
  (is_abstract this = false /\ ~ In type Fork_enumerators /\
   forall h, ForkInEffect this type h = AssertionFailed)
  \/
  (is_abstract this = true /\ forall h, ForkInEffect this type h = Undefined).
Proof.
  destruct this.
  - right. right. split; reflexivity.
  - destruct (MainNetConsensus_threshold_switch type) as [[Hin HT] | [Hout HA]];
      [left | right; left]; repeat split; assumption.
  - destruct (TestNetConsensus_threshold_switch type) as [[Hin HT] | [Hout HA]];
      [left | right; left]; repeat split; assumption.
  - destruct (TestNetConsensus_threshold_switch type) as [[Hin HT] | [Hout HA]];
      [left | right; left]; repeat split; assumption.
Qed.

Lemma ForkInEffect_has_threshold (this : ClassId) (type : Fork) :
  is_abstract this = false -> In type Fork_enumerators ->
  exists T, 0 < T <= UINT_MAX /\ activation_threshold this type T.
Proof.
  intros Hc Hin.
  destruct (ForkInEffect_shape this type)
    as [(_ & _ & T & HT & Hf) | [(_ & Hout & _) | (Ha & _)]].
  - exists T. split; [assumption |]. split; [lia |]. intros h _. apply Hf.
  - contradiction.
  - congruence.
Qed.

(** A fork has at most one activation threshold. *)
Lemma activation_threshold_unique (this : ClassId) (type : Fork) (T T' : Z) :
  activation_threshold this type T -> activation_threshold this type T' ->
  T' = T.
Proof.
  intros [HT H] [HT' H'].
  assert (Hat : (T >=? T') = true).
  { pose proof (H T HT) as E. rewrite (H' T HT) in E.
    injection E as E. rewrite E. apply Z.geb_le. lia. }
  assert (Hat' : (T' >=? T) = true).
  { pose proof (H' T' HT') as E. rewrite (H T' HT') in E.
    injection E as E. rewrite E. apply Z.geb_le. lia. }
  apply Z.geb_le in Hat, Hat'. lia.
Qed.

(** The thresholds written in the two function bodies. *)
Lemma MainNetConsensus_thresholds :
  activation_threshold MainNetConsensus FORK_POISON 255000 /\
  activation_threshold MainNetConsensus FORK_CARRYINGCAP 500000 /\
  activation_threshold MainNetConsensus FORK_LESSHEARTS 590000 /\
  activation_threshold MainNetConsensus FORK_LIFESTEAL 795000.
Proof.
  unfold activation_threshold.
  repeat split;
    first [apply Z.leb_le; reflexivity | intros h _; reflexivity].
Qed.

Lemma TestNetConsensus_thresholds :
  activation_threshold TestNetConsensus FORK_POISON 190000 /\
  activation_threshold TestNetConsensus FORK_CARRYINGCAP 200000 /\
  activation_threshold TestNetConsensus FORK_LESSHEARTS 240000 /\
  activation_threshold TestNetConsensus FORK_LIFESTEAL 301000.
Proof.
  unfold activation_threshold.
  repeat split;
    first [apply Z.leb_le; reflexivity | intros h _; reflexivity].
Qed.

(** ** Activation heights *)

(** Above height 0, [IsForkHeight] compares the two neighbouring heights
    against the threshold. *)
Lemma IsForkHeight_threshold (this : ClassId) (type : Fork) (T h : Z) :
  activation_threshold this type T -> 1 <= h <= UINT_MAX ->
  IsForkHeight this type h = Returns ((h >=? T) && negb (h - 1 >=? T)).
Proof.
  intros [_ HT] Hh. unfold IsForkHeight.
  destruct (Z.eqb_spec h 0) as [E | _]; [lia |].
  rewrite unsigned_sub_1 by assumption.
  rewrite (HT h) by lia. simpl.
  destruct (h >=? T); [| reflexivity].
  rewrite (HT (h - 1)) by lia. reflexivity.
Qed.

Lemma IsForkHeight_zero (this : ClassId) (type : Fork) :
  IsForkHeight this type 0 = Returns false.
Proof. reflexivity. Qed.

(** ** Fork activation *)

(** C1. Under every rules class, for every fork and all heights
    [0 <= h1 < h2]: a fork in effect at [h1] is in effect at [h2]. *)
Theorem ForkInEffect_monotone (this : ClassId) (type : Fork) (h1 h2 : Z) :
  0 <= h1 -> h1 < h2 ->
  ForkInEffect this type h1 = Returns true ->
  ForkInEffect this type h2 = Returns true.
Proof.
  intros H0 Hlt.
  destruct (ForkInEffect_shape this type)
    as [(_ & _ & T & _ & Hf) | [(_ & _ & Hf) | (_ & Hf)]];
    rewrite !Hf; try discriminate.
  intros [= E]. f_equal.
  apply Z.geb_le. apply Z.geb_le in E. lia.
Qed.

Lemma ForkInEffect_monotone_witness :
  (0 <= 255000 /\ 255000 < 4000000 /\
   ForkInEffect MainNetConsensus FORK_POISON 255000 = Returns true) /\
  ForkInEffect MainNetConsensus FORK_POISON 4000000 = Returns true.
Proof.
  split.
  - split; [lia | split; [lia | reflexivity]].
  - apply (ForkInEffect_monotone MainNetConsensus FORK_POISON 255000 4000000);
      [lia | lia | reflexivity].
Defined.

(** C4. Under every network's rules and at every height, [ForkInEffect]
    returns a boolean for each of the four enumerators; for any other value
    of [type] it ends in the failed assertion and returns nothing; and the
    failed assertion is reached for no enumerator. *)
Theorem ForkInEffect_total (this : ClassId) (type : Fork) (h : Z) :
  is_abstract this = false ->
  (In type Fork_enumerators -> exists b, ForkInEffect this type h = Returns b) /\
  (~ In type Fork_enumerators -> ForkInEffect this type h = AssertionFailed) /\
  (ForkInEffect this type h = AssertionFailed -> ~ In type Fork_enumerators).
Proof.
  intros Hc.
  destruct (ForkInEffect_shape this type)
    as [(_ & Hin & T & _ & Hf) | [(_ & Hout & Hf) | (Ha & _)]].
  - rewrite Hf. split; [| split].
    + intros _. eexists. reflexivity.
    + intros Hn. contradiction.
    + discriminate.
  - rewrite Hf. split; [| split].
    + intros Hin. contradiction.
    + reflexivity.
    + intros _. exact Hout.
  - congruence.
Qed.

Lemma ForkInEffect_total_witness :
  (exists b, ForkInEffect RegTestConsensus FORK_LESSHEARTS 17 = Returns b) /\
  ForkInEffect RegTestConsensus 4 17 = AssertionFailed.
Proof.
  split.
  - apply (ForkInEffect_total RegTestConsensus FORK_LESSHEARTS 17);
      [reflexivity | simpl; auto].
  - apply (ForkInEffect_total RegTestConsensus 4 17); [reflexivity |].
    simpl. intros [H | [H | [H | [H | []]]]]; discriminate H.
Defined.

(** C5. [RegTestConsensus] declares no [ForkInEffect] of its own and derives
    from [TestNetConsensus]; for every fork value and height a call on a
    regtest object runs [TestNetConsensus::ForkInEffect] and has the outcome
    of the same call on a testnet object. *)
Theorem RegTest_ForkInEffect_inherited :
  declared_ForkInEffect RegTestConsensus = NotDeclared /\
  base RegTestConsensus = Some TestNetConsensus /\
  forall (type : Fork) (h : Z),
    ForkInEffect RegTestConsensus type h = TestNetConsensus_ForkInEffect type h /\
    ForkInEffect RegTestConsensus type h = ForkInEffect TestNetConsensus type h.
Proof.
  split; [reflexivity |]. split; [reflexivity |].
  intros type h. unfold ForkInEffect.
  rewrite final_overrider_RegTest.
  split; reflexivity.
Qed.

(** C2. Under every network's rules and for every enumerator:
    [IsForkHeight] returns false at height 0, and at every height [h >= 1]
    it returns a boolean that is true exactly when the fork is in effect at
    [h] and not in effect at [h - 1]. *)
Theorem IsForkHeight_spec (this : ClassId) (type : Fork) :
  is_abstract this = false -> In type Fork_enumerators ->
  IsForkHeight this type 0 = Returns false /\
  forall h, 1 <= h <= UINT_MAX ->
    exists b, IsForkHeight this type h = Returns b /\
      (b = true <->
       ForkInEffect this type h = Returns true /\
       ForkInEffect this type (h - 1) = Returns false).
Proof.
  intros Hc Hin. split; [apply IsForkHeight_zero |].
  intros h Hh.
  destruct (ForkInEffect_has_threshold this type Hc Hin) as (T & _ & HT).
  rewrite (IsForkHeight_threshold this type T h HT Hh).
  destruct HT as [_ HT].
  rewrite (HT h), (HT (h - 1)) by lia.
  eexists. split; [reflexivity |].
  destruct (h >=? T), (h - 1 >=? T); simpl; split;
    try discriminate; try (intros [A B]; discriminate); auto.
Qed.

Lemma IsForkHeight_spec_witness :
  IsForkHeight TestNetConsensus FORK_LIFESTEAL 0 = Returns false /\
  exists b, IsForkHeight TestNetConsensus FORK_LIFESTEAL 301000 = Returns b /\
    (b = true <->
     ForkInEffect TestNetConsensus FORK_LIFESTEAL 301000 = Returns true /\
     ForkInEffect TestNetConsensus FORK_LIFESTEAL (301000 - 1) = Returns false).
Proof.
  destruct (IsForkHeight_spec TestNetConsensus FORK_LIFESTEAL) as [H0 Hh].
  - reflexivity.
  - simpl. auto.
  - split; [exact H0 |]. apply Hh. unfold UINT_MAX. lia.
Defined.

(** C3. Under any rules, for a fork whose activation threshold [T] is
    above 0: [IsForkHeight] returns true at [T] and false at every other
    height. *)
Theorem IsForkHeight_exact (this : ClassId) (type : Fork) (T : Z) :
  activation_threshold this type T -> 0 < T ->
  IsForkHeight this type T = Returns true /\
  forall h, 0 <= h <= UINT_MAX -> h <> T ->
    IsForkHeight this type h = Returns false.
Proof.
  intros Hthr HT. pose proof Hthr as [Hrange _]. split.
  - rewrite (IsForkHeight_threshold this type T T Hthr) by lia.
    f_equal. apply andb_true_iff. split.
    + apply Z.geb_le. lia.
    + apply negb_true_iff. rewrite Z.geb_leb. apply Z.leb_gt. lia.
  - intros h Hh Hne.
    destruct (Z.eq_dec h 0) as [-> | Hnz]; [apply IsForkHeight_zero |].
    rewrite (IsForkHeight_threshold this type T h Hthr) by lia.
    f_equal. rewrite !Z.geb_leb.
    destruct (Z.leb_spec T h), (Z.leb_spec T (h - 1)); simpl;
      try reflexivity; lia.
Qed.

Lemma IsForkHeight_exact_witness :
  (activation_threshold MainNetConsensus FORK_CARRYINGCAP 500000 /\
   0 < 500000) /\
  IsForkHeight MainNetConsensus FORK_CARRYINGCAP 500000 = Returns true /\
  IsForkHeight MainNetConsensus FORK_CARRYINGCAP 500001 = Returns false.
Proof.
  assert (Hthr : activation_threshold MainNetConsensus FORK_CARRYINGCAP 500000)
    by (split; [unfold UINT_MAX; lia | intros h _; reflexivity]).
  assert (HT : 0 < 500000) by lia.
  split; [split; assumption |].
  destruct (IsForkHeight_exact MainNetConsensus FORK_CARRYINGCAP 500000 Hthr HT)
    as [Hat Hother].
  split; [exact Hat |].
  apply Hother; [unfold UINT_MAX; lia | lia].
Defined.

(** C6. The scenarios of the main network and of the test network. *)
Theorem concrete_scenarios :
  ForkInEffect MainNetConsensus FORK_CARRYINGCAP 499999 = Returns false /\
  ForkInEffect MainNetConsensus FORK_CARRYINGCAP 500000 = Returns true /\
  IsForkHeight MainNetConsensus FORK_CARRYINGCAP 500000 = Returns true /\
  ForkInEffect TestNetConsensus FORK_LIFESTEAL 300999 = Returns false /\
  ForkInEffect TestNetConsensus FORK_LIFESTEAL 301000 = Returns true.
Proof. repeat split. Qed.

(** C9. Under any rules, for every fork value and height: when
    [IsForkHeight] returns true, [ForkInEffect] returns true at that height. *)
Theorem IsForkHeight_in_effect (this : ClassId) (type : Fork) (h : Z) :
  IsForkHeight this type h = Returns true ->
  ForkInEffect this type h = Returns true.
Proof.
  unfold IsForkHeight.
  destruct (h =? 0); [discriminate |].
  destruct (ForkInEffect this type h) as [[|] | |]; simpl;
    try discriminate.
  intros _. reflexivity.
Qed.

Lemma IsForkHeight_in_effect_witness :
  IsForkHeight RegTestConsensus FORK_POISON 190000 = Returns true /\
  ForkInEffect RegTestConsensus FORK_POISON 190000 = Returns true.
Proof.
  split; [reflexivity |].
  apply (IsForkHeight_in_effect RegTestConsensus FORK_POISON 190000).
  reflexivity.
Defined.

(** C10. The thresholds of the test network are 190000, 200000, 240000 and
    301000, those of the main network 255000, 500000, 590000 and 795000;
    each fork's test-network threshold is strictly below its main-network
    threshold; and a fork in effect at a height under the main-network rules
    is in effect at that height under the test-network rules. *)
Theorem MainNet_in_effect_implies_TestNet :
  (activation_threshold TestNetConsensus FORK_POISON 190000 /\
   activation_threshold TestNetConsensus FORK_CARRYINGCAP 200000 /\
   activation_threshold TestNetConsensus FORK_LESSHEARTS 240000 /\
   activation_threshold TestNetConsensus FORK_LIFESTEAL 301000) /\
  (activation_threshold MainNetConsensus FORK_POISON 255000 /\
   activation_threshold MainNetConsensus FORK_CARRYINGCAP 500000 /\
   activation_threshold MainNetConsensus FORK_LESSHEARTS 590000 /\
   activation_threshold MainNetConsensus FORK_LIFESTEAL 795000) /\
  (forall type Tm Tt, In type Fork_enumerators ->
     activation_threshold MainNetConsensus type Tm ->
     activation_threshold TestNetConsensus type Tt -> Tt < Tm) /\
  (forall type h,
     ForkInEffect MainNetConsensus type h = Returns true ->
     ForkInEffect TestNetConsensus type h = Returns true).
Proof.
  split; [exact TestNetConsensus_thresholds |].
  split; [exact MainNetConsensus_thresholds |].
  split.
  - intros type Tm Tt Hin Hm Ht.
    destruct MainNetConsensus_thresholds as (M0 & M1 & M2 & M3).
    destruct TestNetConsensus_thresholds as (T0 & T1 & T2 & T3).
    apply Fork_enumerators_cases in Hin.
    destruct Hin as [-> | [-> | [-> | ->]]].
    + rewrite (activation_threshold_unique _ _ _ _ M0 Hm).
      rewrite (activation_threshold_unique _ _ _ _ T0 Ht). lia.
    + rewrite (activation_threshold_unique _ _ _ _ M1 Hm).
      rewrite (activation_threshold_unique _ _ _ _ T1 Ht). lia.
    + rewrite (activation_threshold_unique _ _ _ _ M2 Hm).
      rewrite (activation_threshold_unique _ _ _ _ T2 Ht). lia.
    + rewrite (activation_threshold_unique _ _ _ _ M3 Hm).
      rewrite (activation_threshold_unique _ _ _ _ T3 Ht). lia.
  - intros type h.
    change (ForkInEffect MainNetConsensus type h)
      with (MainNetConsensus_ForkInEffect type h).
    change (ForkInEffect TestNetConsensus type h)
      with (TestNetConsensus_ForkInEffect type h).
    unfold MainNetConsensus_ForkInEffect, TestNetConsensus_ForkInEffect.
    switch_on type; try discriminate;
      intros [= E]; f_equal; apply Z.geb_le; apply Z.geb_le in E; lia.
Qed.

Lemma MainNet_in_effect_implies_TestNet_witness :
  (In FORK_LESSHEARTS Fork_enumerators /\
   activation_threshold MainNetConsensus FORK_LESSHEARTS 590000 /\
   activation_threshold TestNetConsensus FORK_LESSHEARTS 240000 /\
   ForkInEffect MainNetConsensus FORK_LESSHEARTS 600000 = Returns true) /\
  240000 < 590000 /\
  ForkInEffect TestNetConsensus FORK_LESSHEARTS 600000 = Returns true.
Proof.
  assert (Hin : In FORK_LESSHEARTS Fork_enumerators) by (simpl; auto).
  assert (Hm : activation_threshold MainNetConsensus FORK_LESSHEARTS 590000)
    by (split; [unfold UINT_MAX; lia | intros h _; reflexivity]).
  assert (Ht : activation_threshold TestNetConsensus FORK_LESSHEARTS 240000)
    by (split; [unfold UINT_MAX; lia | intros h _; reflexivity]).
  destruct MainNet_in_effect_implies_TestNet as (_ & _ & Hlt & Himp).
  split; [split; [exact Hin | split; [exact Hm | split; [exact Ht | reflexivity]]] |].
  split.
  - exact (Hlt FORK_LESSHEARTS 590000 240000 Hin Hm Ht).
  - apply Himp. reflexivity.
Defined.

(** ** Params *)

Lemma example_params_well_typed : Params_well_typed example_params.
Proof.
  unfold Params_well_typed, example_params; simpl.
  repeat match goal with
         | |- _ /\ _ => split
         | |- Forall _ _ => constructor
         | |- in_range _ _ _ => range_by_computation
         | |- _ = _ => reflexivity
         end.
Qed.

Lemma overflow_params_well_typed : Params_well_typed overflow_params.
Proof.
  unfold Params_well_typed, overflow_params; simpl.
  repeat match goal with
         | |- _ /\ _ => split
         | |- Forall _ _ => constructor
         | |- in_range _ _ _ => range_by_computation
         | |- _ = _ => reflexivity
         end.
Qed.

(** On a well-typed parameter set a returned interval is an [int64_t]. *)
Lemma DifficultyAdjustmentInterval_in_range (p : Params) (q : Z) :
  Params_well_typed p ->
  DifficultyAdjustmentInterval p = Returns q ->
  in_range INT64_MIN INT64_MAX q.
Proof.
  intros Hwt. unfold DifficultyAdjustmentInterval.
  apply int64_div_in_range.
  unfold Params_well_typed in Hwt. tauto.
Qed.

(** C7, as stated, fails: with the timespan [INT64_MIN] and the spacing -1
    (nonzero) the quotient 2^63 is no [int64_t], and the call does not
    return it. *)
Lemma DifficultyAdjustmentInterval_overflow :
  Params_well_typed overflow_params /\
  nPowTargetSpacing overflow_params <> 0 /\
  nPowTargetTimespan overflow_params ÷ nPowTargetSpacing overflow_params
    = 9223372036854775808 /\
  ~ in_range INT64_MIN INT64_MAX
      (nPowTargetTimespan overflow_params ÷ nPowTargetSpacing overflow_params) /\
  DifficultyAdjustmentInterval overflow_params = Undefined /\
  DifficultyAdjustmentInterval overflow_params
    <> Returns (nPowTargetTimespan overflow_params
                ÷ nPowTargetSpacing overflow_params).
Proof.
  split; [exact overflow_params_well_typed |].
  split; [discriminate |].
  split; [reflexivity |].
  split.
  - unfold in_range. intros [_ H]. apply H. reflexivity.
  - split; [reflexivity | discriminate].
Qed.

(** C7, amended. For every parameter set whose spacing is nonzero and
    which is not the pair timespan [INT64_MIN], spacing -1, the interval
    returned is the quotient of the timespan by the spacing, truncated toward
    zero; the result is computed from these two fields alone, so two
    parameter sets that agree on them have the same interval. *)
Theorem DifficultyAdjustmentInterval_quotient (p : Params) :
  nPowTargetSpacing p <> 0 ->
  ~ (nPowTargetTimespan p = INT64_MIN /\ nPowTargetSpacing p = -1) ->
  DifficultyAdjustmentInterval p
    = Returns (nPowTargetTimespan p ÷ nPowTargetSpacing p) /\
  forall q : Params,
    nPowTargetTimespan q = nPowTargetTimespan p ->
    nPowTargetSpacing q = nPowTargetSpacing p ->
    DifficultyAdjustmentInterval q = DifficultyAdjustmentInterval p.
Proof.
  intros Hnz Hov. split.
  - unfold DifficultyAdjustmentInterval. apply int64_div_defined; assumption.
  - intros q Ht Hs. unfold DifficultyAdjustmentInterval.
    rewrite Ht, Hs. reflexivity.
Qed.

Lemma DifficultyAdjustmentInterval_quotient_witness :
  (nPowTargetSpacing example_params <> 0 /\
   ~ (nPowTargetTimespan example_params = INT64_MIN /\
      nPowTargetSpacing example_params = -1)) /\
  DifficultyAdjustmentInterval example_params = Returns 10080.
Proof.
  assert (Hnz : nPowTargetSpacing example_params <> 0) by discriminate.
  assert (Hov : ~ (nPowTargetTimespan example_params = INT64_MIN /\
                   nPowTargetSpacing example_params = -1))
    by (intros [_ H]; discriminate H).
  split; [split; assumption |].
  exact (proj1 (DifficultyAdjustmentInterval_quotient example_params Hnz Hov)).
Defined.

(** C8. For every parameter set, [AllowLegacyBlocks] is true at height 0
    and false at every height [h >= 1]; its value is the same for every
    other parameter set, whatever its fields and its rules. *)
Theorem AllowLegacyBlocks_genesis_only (p : Params) :
  AllowLegacyBlocks p 0 = true /\
  (forall h, 1 <= h -> AllowLegacyBlocks p h = false) /\
  (forall (q : Params) (h : Z), AllowLegacyBlocks q h = AllowLegacyBlocks p h).
Proof.
  split; [reflexivity |]. split.
  - intros h Hh. unfold AllowLegacyBlocks. apply Z.eqb_neq. lia.
  - intros q h. reflexivity.
Qed.

Lemma AllowLegacyBlocks_genesis_only_witness :
  1 <= 1 /\
  AllowLegacyBlocks example_params 0 = true /\
  AllowLegacyBlocks example_params 1 = false /\
  AllowLegacyBlocks overflow_params UINT_MAX = false.
Proof.
  destruct (AllowLegacyBlocks_genesis_only example_params) as (H0 & Hpos & Hany).
  split; [lia |]. split; [exact H0 |]. split.
  - apply Hpos. lia.
  - rewrite Hany. apply Hpos. unfold UINT_MAX. lia.
Defined.

(** ** Further properties of activation heights *)

(** The arms of the switch reached by the enumerators, class by class. *)
Lemma MainNetConsensus_arms (h : Z) :
  ForkInEffect MainNetConsensus FORK_POISON h = Returns (h >=? 255000) /\
  ForkInEffect MainNetConsensus FORK_CARRYINGCAP h = Returns (h >=? 500000) /\
  ForkInEffect MainNetConsensus FORK_LESSHEARTS h = Returns (h >=? 590000) /\
  ForkInEffect MainNetConsensus FORK_LIFESTEAL h = Returns (h >=? 795000).
Proof. repeat split. Qed.

Lemma TestNetConsensus_arms (h : Z) :
  ForkInEffect TestNetConsensus FORK_POISON h = Returns (h >=? 190000) /\
  ForkInEffect TestNetConsensus FORK_CARRYINGCAP h = Returns (h >=? 200000) /\
  ForkInEffect TestNetConsensus FORK_LESSHEARTS h = Returns (h >=? 240000) /\
  ForkInEffect TestNetConsensus FORK_LIFESTEAL h = Returns (h >=? 301000).
Proof. repeat split. Qed.

Lemma RegTestConsensus_arms (h : Z) :
  ForkInEffect RegTestConsensus FORK_POISON h = Returns (h >=? 190000) /\
  ForkInEffect RegTestConsensus FORK_CARRYINGCAP h = Returns (h >=? 200000) /\
  ForkInEffect RegTestConsensus FORK_LESSHEARTS h = Returns (h >=? 240000) /\
  ForkInEffect RegTestConsensus FORK_LIFESTEAL h = Returns (h >=? 301000).
Proof. repeat split. Qed.

(** Rewrite the calls on an enumerator at height [h] into their arms. *)
Ltac arms_at h :=
  rewrite
    ?(proj1 (MainNetConsensus_arms h)),
    ?(proj1 (proj2 (MainNetConsensus_arms h))),
    ?(proj1 (proj2 (proj2 (MainNetConsensus_arms h)))),
    ?(proj2 (proj2 (proj2 (MainNetConsensus_arms h)))),
    ?(proj1 (TestNetConsensus_arms h)),
    ?(proj1 (proj2 (TestNetConsensus_arms h))),
    ?(proj1 (proj2 (proj2 (TestNetConsensus_arms h)))),
    ?(proj2 (proj2 (proj2 (TestNetConsensus_arms h)))),
    ?(proj1 (RegTestConsensus_arms h)),
    ?(proj1 (proj2 (RegTestConsensus_arms h))),
    ?(proj1 (proj2 (proj2 (RegTestConsensus_arms h)))),
    ?(proj2 (proj2 (proj2 (RegTestConsensus_arms h)))) in *.

(** Split on the class, dropping the abstract one, and on the enumerator. *)
Ltac network_cases this Hc :=
  destruct this; [discriminate Hc | | |].

Ltac enumerator_cases Hin :=
  apply Fork_enumerators_cases in Hin;
  destruct Hin as [-> | [-> | [-> | ->]]].

(** Turn the comparisons of heights into inequalities. *)
Ltac geb_to_order :=
  repeat match goal with
    | H : Returns _ = Returns _ |- _ => injection H as H
    | H : (_ >=? _) = true |- _ => apply Z.geb_le in H
    | H : (_ >=? _) = false |- _ => rewrite Z.geb_leb in H; apply Z.leb_gt in H
    | |- Returns _ = Returns _ => f_equal
    | |- (_ >=? _) = true => apply Z.geb_le
    | |- (_ >=? _) = false => rewrite Z.geb_leb; apply Z.leb_gt
    end.

(** A height at which [IsForkHeight] returns true is the threshold. *)
Lemma IsForkHeight_true_threshold (this : ClassId) (type : Fork) (h : Z) :
  0 <= h <= UINT_MAX ->
  IsForkHeight this type h = Returns true ->
  0 < h /\ activation_threshold this type h.
Proof.
  intros Hh Htrue.
  destruct (Z.eq_dec h 0) as [-> | Hnz];
    [rewrite IsForkHeight_zero in Htrue; discriminate |].
  destruct (ForkInEffect_shape this type)
    as [(_ & _ & T & HT & Hf) | [(_ & _ & Hf) | (_ & Hf)]].
  - assert (Hthr : activation_threshold this type T)
      by (split; [lia | intros h' _; apply Hf]).
    rewrite (IsForkHeight_threshold this type T h Hthr) in Htrue by lia.
    injection Htrue as Htrue. apply andb_true_iff in Htrue.
    destruct Htrue as [Hge Hlt]. apply negb_true_iff in Hlt.
    geb_to_order. assert (h = T) by lia. subst h.
    split; [lia | exact Hthr].
  - unfold IsForkHeight in Htrue.
    destruct (Z.eqb_spec h 0); [contradiction |].
    rewrite Hf in Htrue. discriminate.
  - unfold IsForkHeight in Htrue.
    destruct (Z.eqb_spec h 0); [contradiction |].
    rewrite Hf in Htrue. discriminate.
Qed.

(** Only an enumerator under a class that is not abstract has a threshold. *)
Lemma activation_threshold_enumerator (this : ClassId) (type : Fork) (T : Z) :
  activation_threshold this type T ->
  is_abstract this = false /\ In type Fork_enumerators.
Proof.
  intros [HT Hthr].
  destruct (ForkInEffect_shape this type)
    as [(Hc & Hin & _) | [(_ & _ & Hf) | (_ & Hf)]].
  - split; assumption.
  - pose proof (Hthr T HT) as E. rewrite Hf in E. discriminate E.
  - pose proof (Hthr T HT) as E. rewrite Hf in E. discriminate E.
Qed.

(** X1. Under any rules and for any fork value, [IsForkHeight] returns true
    at no more than one height. *)
Theorem IsForkHeight_unique (this : ClassId) (type : Fork) (h1 h2 : Z) :
  0 <= h1 <= UINT_MAX -> 0 <= h2 <= UINT_MAX ->
  IsForkHeight this type h1 = Returns true ->
  IsForkHeight this type h2 = Returns true ->
  h1 = h2.
Proof.
  intros Hr1 Hr2 H1 H2.
  destruct (IsForkHeight_true_threshold this type h1 Hr1 H1) as [_ T1].
  destruct (IsForkHeight_true_threshold this type h2 Hr2 H2) as [_ T2].
  exact (activation_threshold_unique this type h2 h1 T2 T1).
Qed.

Lemma IsForkHeight_unique_witness :
  (0 <= 240000 <= UINT_MAX /\
   IsForkHeight RegTestConsensus FORK_LESSHEARTS 240000 = Returns true) /\
  240000 = 240000.
Proof.
  assert (Hr : 0 <= 240000 <= UINT_MAX) by (unfold UINT_MAX; lia).
  assert (Ht : IsForkHeight RegTestConsensus FORK_LESSHEARTS 240000
               = Returns true) by reflexivity.
  split; [split; assumption |].
  exact (IsForkHeight_unique RegTestConsensus FORK_LESSHEARTS 240000 240000
           Hr Hr Ht Ht).
Defined.

(** X2. When [IsForkHeight] returns true at a height [h], the fork is in
    effect at no height below [h] and at every height from [h] on. *)
Theorem IsForkHeight_splits_heights (this : ClassId) (type : Fork) (h : Z) :
  0 <= h <= UINT_MAX ->
  IsForkHeight this type h = Returns true ->
  (forall h', 0 <= h' < h -> ForkInEffect this type h' = Returns false) /\
  (forall h', h <= h' <= UINT_MAX -> ForkInEffect this type h' = Returns true).
Proof.
  intros Hr Htrue.
  destruct (IsForkHeight_true_threshold this type h Hr Htrue) as [_ [_ Hthr]].
  split; intros h' Hh'; rewrite Hthr by lia; geb_to_order; lia.
Qed.

Lemma IsForkHeight_splits_heights_witness :
  (0 <= 795000 <= UINT_MAX /\
   IsForkHeight MainNetConsensus FORK_LIFESTEAL 795000 = Returns true) /\
  ForkInEffect MainNetConsensus FORK_LIFESTEAL 794999 = Returns false /\
  ForkInEffect MainNetConsensus FORK_LIFESTEAL UINT_MAX = Returns true.
Proof.
  assert (Hr : 0 <= 795000 <= UINT_MAX) by (unfold UINT_MAX; lia).
  assert (Ht : IsForkHeight MainNetConsensus FORK_LIFESTEAL 795000
               = Returns true) by reflexivity.
  split; [split; assumption |].
  destruct (IsForkHeight_splits_heights MainNetConsensus FORK_LIFESTEAL 795000
              Hr Ht) as [Hbelow Hfrom].
  split; [apply Hbelow; lia | apply Hfrom; unfold UINT_MAX; lia].
Defined.

(** X3. For a value of [type] outside the enumeration, under the rules of
    any network: [IsForkHeight] returns false at height 0, before any call
    of [ForkInEffect], and ends in the failed assertion at every other
    height. *)
Theorem IsForkHeight_unrecognised (this : ClassId) (type : Fork) :
  is_abstract this = false -> ~ In type Fork_enumerators ->
  IsForkHeight this type 0 = Returns false /\
  forall h, h <> 0 -> IsForkHeight this type h = AssertionFailed.
Proof.
  intros Hc Hout. split; [apply IsForkHeight_zero |].
  intros h Hnz. unfold IsForkHeight.
  destruct (Z.eqb_spec h 0); [contradiction |].
  destruct (ForkInEffect_shape this type)
    as [(_ & Hin & _) | [(_ & _ & Hf) | (Ha & _)]].
  - contradiction.
  - rewrite Hf. reflexivity.
  - congruence.
Qed.

Lemma IsForkHeight_unrecognised_witness :
  IsForkHeight TestNetConsensus 4 0 = Returns false /\
  IsForkHeight TestNetConsensus 4 1 = AssertionFailed.
Proof.
  destruct (IsForkHeight_unrecognised TestNetConsensus 4) as [H0 Hh].
  - reflexivity.
  - simpl. intros [H | [H | [H | [H | []]]]]; discriminate H.
  - split; [exact H0 | apply Hh; discriminate].
Defined.

(** ** Further properties of the threshold tables *)

Lemma RegTestConsensus_thresholds :
  activation_threshold RegTestConsensus FORK_POISON 190000 /\
  activation_threshold RegTestConsensus FORK_CARRYINGCAP 200000 /\
  activation_threshold RegTestConsensus FORK_LESSHEARTS 240000 /\
  activation_threshold RegTestConsensus FORK_LIFESTEAL 301000.
Proof.
  unfold activation_threshold.
  repeat split;
    first [apply Z.leb_le; reflexivity | intros h _; reflexivity].
Qed.

(** Replace a threshold of an enumerator by the literal of its arm. *)
Ltac pin_with H tbl :=
  first
    [ pose proof (activation_threshold_unique _ _ _ _ (proj1 tbl) H)
    | pose proof (activation_threshold_unique _ _ _ _ (proj1 (proj2 tbl)) H)
    | pose proof
        (activation_threshold_unique _ _ _ _ (proj1 (proj2 (proj2 tbl))) H)
    | pose proof
        (activation_threshold_unique _ _ _ _ (proj2 (proj2 (proj2 tbl))) H) ].

Ltac pin_threshold H :=
  first [ pin_with H MainNetConsensus_thresholds
        | pin_with H TestNetConsensus_thresholds
        | pin_with H RegTestConsensus_thresholds ].

(** X4. Under the rules of every network the forks start in the order of
    the enumeration: where a fork is in effect, every enumerator declared
    before it is in effect as well. *)
Theorem forks_in_enumeration_order (this : ClassId) (f1 f2 : Fork) (h : Z) :
  is_abstract this = false ->
  In f1 Fork_enumerators -> In f2 Fork_enumerators -> f1 <= f2 ->
  ForkInEffect this f2 h = Returns true ->
  ForkInEffect this f1 h = Returns true.
Proof.
  intros Hc Hin1 Hin2 Hle.
  network_cases this Hc; enumerator_cases Hin1; enumerator_cases Hin2;
    unfold FORK_POISON, FORK_CARRYINGCAP, FORK_LESSHEARTS, FORK_LIFESTEAL
      in Hle;
    try lia; intros H; arms_at h; geb_to_order; lia.
Qed.

Lemma forks_in_enumeration_order_witness :
  (is_abstract TestNetConsensus = false /\
   In FORK_CARRYINGCAP Fork_enumerators /\
   In FORK_LIFESTEAL Fork_enumerators /\
   FORK_CARRYINGCAP <= FORK_LIFESTEAL /\
   ForkInEffect TestNetConsensus FORK_LIFESTEAL 301000 = Returns true) /\
  ForkInEffect TestNetConsensus FORK_CARRYINGCAP 301000 = Returns true.
Proof.
  assert (Hc : is_abstract TestNetConsensus = false) by reflexivity.
  assert (H1 : In FORK_CARRYINGCAP Fork_enumerators) by (simpl; auto).
  assert (H2 : In FORK_LIFESTEAL Fork_enumerators) by (simpl; auto).
  assert (Hle : FORK_CARRYINGCAP <= FORK_LIFESTEAL)
    by (unfold FORK_CARRYINGCAP, FORK_LIFESTEAL; lia).
  assert (Hlate : ForkInEffect TestNetConsensus FORK_LIFESTEAL 301000
                  = Returns true) by reflexivity.
  split; [repeat (split; [assumption |]); assumption |].
  exact (forks_in_enumeration_order TestNetConsensus FORK_CARRYINGCAP
           FORK_LIFESTEAL 301000 Hc H1 H2 Hle Hlate).
Defined.

(** X5. Under any rules, a height is the activation height of at most one
    fork: when [IsForkHeight] returns true for two fork values at the same
    height, the two values are the same. *)
Theorem one_fork_per_height (this : ClassId) (f1 f2 : Fork) (h : Z) :
  0 <= h <= UINT_MAX ->
  IsForkHeight this f1 h = Returns true ->
  IsForkHeight this f2 h = Returns true ->
  f1 = f2.
Proof.
  intros Hr H1 H2.
  destruct (IsForkHeight_true_threshold this f1 h Hr H1) as [_ T1].
  destruct (IsForkHeight_true_threshold this f2 h Hr H2) as [_ T2].
  destruct (activation_threshold_enumerator this f1 h T1) as [Hc Hin1].
  destruct (activation_threshold_enumerator this f2 h T2) as [_ Hin2].
  network_cases this Hc; enumerator_cases Hin1; enumerator_cases Hin2;
    try reflexivity; pin_threshold T1; pin_threshold T2; lia.
Qed.

Lemma one_fork_per_height_witness :
  (0 <= 590000 <= UINT_MAX /\
   IsForkHeight MainNetConsensus FORK_LESSHEARTS 590000 = Returns true) /\
  FORK_LESSHEARTS = FORK_LESSHEARTS.
Proof.
  assert (Hr : 0 <= 590000 <= UINT_MAX) by (unfold UINT_MAX; lia).
  assert (Ht : IsForkHeight MainNetConsensus FORK_LESSHEARTS 590000
               = Returns true) by reflexivity.
  split; [split; assumption |].
  exact (one_fork_per_height MainNetConsensus FORK_LESSHEARTS FORK_LESSHEARTS
           590000 Hr Ht Ht).
Defined.

(** X6. Under the rules of every network, no fork of the enumeration is in
    effect below height 190000, and every one is in effect from height
    795000 on. *)
Theorem no_fork_early_every_fork_late (this : ClassId) (type : Fork) (h : Z) :
  is_abstract this = false -> In type Fork_enumerators ->
  (0 <= h < 190000 -> ForkInEffect this type h = Returns false) /\
  (795000 <= h -> ForkInEffect this type h = Returns true).
Proof.
  intros Hc Hin.
  network_cases this Hc; enumerator_cases Hin;
    split; intros Hh; arms_at h; geb_to_order; lia.
Qed.

Lemma no_fork_early_every_fork_late_witness :
  ForkInEffect TestNetConsensus FORK_POISON 189999 = Returns false /\
  ForkInEffect MainNetConsensus FORK_LIFESTEAL 795000 = Returns true.
Proof.
  split.
  - apply (no_fork_early_every_fork_late TestNetConsensus FORK_POISON 189999);
      [reflexivity | simpl; auto | lia].
  - apply (no_fork_early_every_fork_late MainNetConsensus FORK_LIFESTEAL 795000);
      [reflexivity | simpl; auto | lia].
Defined.

(** X7. At a height where [AllowLegacyBlocks] is true, [IsForkHeight]
    returns false for every fork value under any rules, and under the rules
    of a network no fork of the enumeration is in effect. *)
Theorem legacy_height_before_forks
    (p : Params) (this : ClassId) (type : Fork) (h : Z) :
  AllowLegacyBlocks p h = true ->
  IsForkHeight this type h = Returns false /\
  (is_abstract this = false -> In type Fork_enumerators ->
   ForkInEffect this type h = Returns false).
Proof.
  unfold AllowLegacyBlocks. intros Hz. apply Z.eqb_eq in Hz. subst h.
  split; [apply IsForkHeight_zero |].
  intros Hc Hin.
  apply (no_fork_early_every_fork_late this type 0 Hc Hin). lia.
Qed.

Lemma legacy_height_before_forks_witness :
  AllowLegacyBlocks example_params 0 = true /\
  IsForkHeight RegTestConsensus FORK_POISON 0 = Returns false /\
  ForkInEffect RegTestConsensus FORK_POISON 0 = Returns false.
Proof.
  assert (Hl : AllowLegacyBlocks example_params 0 = true) by reflexivity.
  destruct (legacy_height_before_forks example_params RegTestConsensus
              FORK_POISON 0 Hl) as [Hfh Hfe].
  split; [exact Hl |]. split; [exact Hfh |].
  apply Hfe; [reflexivity | simpl; auto].
Defined.

(** X8. At the height where a fork starts under the main-network rules,
    the same fork is in effect under the test-network rules and that height
    is not its activation height there. *)
Theorem MainNet_activation_after_TestNet (type : Fork) (h : Z) :
  0 <= h <= UINT_MAX ->
  IsForkHeight MainNetConsensus type h = Returns true ->
  ForkInEffect TestNetConsensus type h = Returns true /\
  IsForkHeight TestNetConsensus type h = Returns false.
Proof.
  intros Hr Htrue.
  destruct (IsForkHeight_true_threshold _ type h Hr Htrue) as [_ T].
  destruct (activation_threshold_enumerator _ type h T) as [_ Hin].
  enumerator_cases Hin; pin_threshold T; subst h; split; reflexivity.
Qed.

Lemma MainNet_activation_after_TestNet_witness :
  (0 <= 255000 <= UINT_MAX /\
   IsForkHeight MainNetConsensus FORK_POISON 255000 = Returns true) /\
  ForkInEffect TestNetConsensus FORK_POISON 255000 = Returns true /\
  IsForkHeight TestNetConsensus FORK_POISON 255000 = Returns false.
Proof.
  assert (Hr : 0 <= 255000 <= UINT_MAX) by (unfold UINT_MAX; lia).
  assert (Ht : IsForkHeight MainNetConsensus FORK_POISON 255000
               = Returns true) by reflexivity.
  split; [split; assumption |].
  exact (MainNet_activation_after_TestNet FORK_POISON 255000 Hr Ht).
Defined.

(** ** Further properties of the difficulty adjustment interval *)



(** X10. With a timespan that is not negative and a positive spacing, the
    interval returned is the largest number of spacings that fit into the
    timespan; it is zero exactly when the timespan is shorter than one
    spacing. *)
Theorem DifficultyAdjustmentInterval_bounds (p : Params) :
  0 <= nPowTargetTimespan p -> 0 < nPowTargetSpacing p ->
  exists q,
    DifficultyAdjustmentInterval p = Returns q /\
    0 <= q /\
    q * nPowTargetSpacing p <= nPowTargetTimespan p
      < (q + 1) * nPowTargetSpacing p /\
    (q = 0 <-> nPowTargetTimespan p < nPowTargetSpacing p).
Proof.
  intros Ht Hs.
  exists (nPowTargetTimespan p ÷ nPowTargetSpacing p).
  split.
  - unfold DifficultyAdjustmentInterval. apply int64_div_defined; lia.
  - pose proof (Z.quot_rem' (nPowTargetTimespan p) (nPowTargetSpacing p)) as E.
    pose proof (Z.rem_bound_pos (nPowTargetTimespan p) (nPowTargetSpacing p)
                  Ht Hs) as Hr.
    pose proof (Z.quot_pos (nPowTargetTimespan p) (nPowTargetSpacing p)
                  Ht Hs) as Hq.
    split; [exact Hq |]. split; [nia |]. split; intros H; nia.
Qed.

Lemma DifficultyAdjustmentInterval_bounds_witness :
  (0 <= nPowTargetTimespan example_params /\
   0 < nPowTargetSpacing example_params) /\
  exists q,
    DifficultyAdjustmentInterval example_params = Returns q /\
    0 <= q /\
    q * 120 <= 1209600 < (q + 1) * 120 /\
    (q = 0 <-> 1209600 < 120).
Proof.
  assert (Ht : 0 <= nPowTargetTimespan example_params) by (simpl; lia).
  assert (Hs : 0 < nPowTargetSpacing example_params) by (simpl; lia).
  split; [split; assumption |].
  exact (DifficultyAdjustmentInterval_bounds example_params Ht Hs).
Defined.

(** X11. Whenever an interval is returned, it is no larger in magnitude
    than the timespan, and with a timespan in the range of [int64_t] it is
    in that range as well. *)
Theorem DifficultyAdjustmentInterval_magnitude (p : Params) (q : Z) :
  DifficultyAdjustmentInterval p = Returns q ->
  Z.abs q <= Z.abs (nPowTargetTimespan p) /\
  (in_range INT64_MIN INT64_MAX (nPowTargetTimespan p) ->
   in_range INT64_MIN INT64_MAX q).
Proof.
  intros Hq. split.
  - unfold DifficultyAdjustmentInterval, int64_div in Hq.
    destruct (Z.eqb_spec (nPowTargetSpacing p) 0) as [E | Hb];
      [discriminate |].
    destruct ((nPowTargetTimespan p =? INT64_MIN)
              && (nPowTargetSpacing p =? -1)); [discriminate |].
    injection Hq as <-.
    pose proof (Z.quot_rem' (nPowTargetTimespan p) (nPowTargetSpacing p)) as E.
    pose proof (Z.rem_bound_abs (nPowTargetTimespan p) (nPowTargetSpacing p)
                  Hb) as Hr.
    pose proof (Z.rem_sign_mul (nPowTargetTimespan p) (nPowTargetSpacing p)
                  Hb) as Hsg.
    nia.
  - intros Hrange.
    exact (int64_div_in_range _ _ q Hrange Hq).
Qed.

Lemma DifficultyAdjustmentInterval_magnitude_witness :
  DifficultyAdjustmentInterval example_params = Returns 10080 /\
  Z.abs 10080 <= Z.abs 1209600 /\
  in_range INT64_MIN INT64_MAX 10080.
Proof.
  assert (Hq : DifficultyAdjustmentInterval example_params = Returns 10080)
    by reflexivity.
  destruct (DifficultyAdjustmentInterval_magnitude example_params 10080 Hq)
    as [Habs Hrange].
  split; [exact Hq |]. split; [exact Habs |].
  apply Hrange. range_by_computation.
Defined.

End Consensus.
